(** * Smooth scrolling: [composables/goto.ts]

    A shallow embedding of Vuetify's [goto] composable and the proofs of its
    specification.

    Numbers.  A JavaScript [number] is modelled as an exact rational ([Q]):
    [Math.floor] is [Qfloor], [Math.abs] is [Qabs], [Math.min]/[Math.max] are
    [Qmin]/[Qmax], [===] on numbers is [Qeq_bool].  Rounding, [NaN] and the
    infinities of IEEE doubles are outside the model.

    DOM.  An element carries the geometry the module reads.  The offset-parent
    and parent links are part of the element, so the chain walked by
    [getOffset] is finite, as it is in a document tree.  Only the scroll
    position of the container is ever written; the write is the plain property
    assignment of the source.

    Effects.  Everything the module does to the outside world is recorded as
    an [Event] in a trace: console output, scroll writes and frame requests. *)

From Stdlib Require Import QArith Qminmax Qround Qabs ZArith String List Bool Lia Lqa.
From stdpp Require Import gmap strings.

Open Scope Q_scope.

(** ** Numbers *)

Definition number := Q.

(** [a > b] and [a >= b] on numbers, as booleans. *)
Definition gtb (a b : number) : bool := negb (Qle_bool a b).
Definition geb (a b : number) : bool := Qle_bool b a.

(** JavaScript truthiness of a number ([0] is falsy). *)
Definition truthy (n : number) : bool := negb (Qeq_bool n 0).

(** [Math.floor], returning a number again. *)
Definition Math_floor (n : number) : number := inject_Z (Qfloor n).

(** ** The DOM *)

#[local] Unset Elimination Schemes.
Inductive HTMLElement : Type := mkHTMLElement {
  node : positive;                      (* object identity, for [===] *)
  offsetLeft : number;
  offsetTop : number;
  offsetWidth : number;
  offsetHeight : number;
  clientWidth : number;
  clientHeight : number;
  scrollWidth : number;
  scrollHeight : number;
  scrollLeft : number;
  scrollTop : number;
  offsetParent : option HTMLElement;
  parentElement : option HTMLElement
}.
#[local] Set Elimination Schemes.

(** [el === other] on elements. *)
Definition same_node (a b : HTMLElement) : bool := Pos.eqb (node a) (node b).

(** [container.scrollLeft = v] and [container.scrollTop = v]. *)
Definition set_scrollLeft (c : HTMLElement) (v : number) : HTMLElement :=
  mkHTMLElement (node c) (offsetLeft c) (offsetTop c) (offsetWidth c)
    (offsetHeight c) (clientWidth c) (clientHeight c) (scrollWidth c)
    (scrollHeight c) v (scrollTop c) (offsetParent c) (parentElement c).

Definition set_scrollTop (c : HTMLElement) (v : number) : HTMLElement :=
  mkHTMLElement (node c) (offsetLeft c) (offsetTop c) (offsetWidth c)
    (offsetHeight c) (clientWidth c) (clientHeight c) (scrollWidth c)
    (scrollHeight c) (scrollLeft c) v (offsetParent c) (parentElement c).

(** A mounted or unmounted component: [$el] is its root element. *)
Record ComponentPublicInstance : Type := mkComponent {
  el : option HTMLElement
}.

(** [ComponentPublicInstance | HTMLElement | string | undefined]. *)
Inductive Descriptor : Type :=
| DUndefined
| DString (selector : string)
| DElement (e : HTMLElement)
| DComponent (c : ComponentPublicInstance).

(** A value of type [any] as [getOffset] receives it. *)
Inductive Any : Type :=
| ANumber (n : number)
| ADescriptor (d : Descriptor).

(** The ambient [document], [window] and [performance] objects. *)
Record Window : Type := mkWindow {
  querySelector : string -> option HTMLElement;
  scrollingElement : option HTMLElement;
  body : HTMLElement;
  documentElement : HTMLElement;
  (* [parseInt(getComputedStyle(e).getPropertyValue('--v-layout-top'), 10)];
     [None] when the property value is the empty string *)
  layoutTop : HTMLElement -> option number;
  (* [performance.now()] *)
  now : number
}.

(** Modelled from the spec: [refElement] of [@/util] is not part of this
    module.  It unwraps a component handle to its root element, gives nothing
    for an unmounted handle, and returns an element as it is. *)
Definition refElement (d : Descriptor) : option HTMLElement :=
  match d with
  | DComponent c => el c
  | DElement e => Some e
  | _ => None
  end.

Definition getTarget (w : Window) (d : Descriptor) : option HTMLElement :=
  match d with
  | DString s => querySelector w s
  | _ => refElement d
  end.

Definition getContainer (w : Window) (d : Descriptor) : HTMLElement :=
  match getTarget w d with
  | Some e => e
  | None =>
      match scrollingElement w with
      | Some e => e
      | None => body w
      end
  end.

(** ** Offset calculator *)

(** The [while (el)] loop of [getOffset]: [total] is [totalOffset] on entry
    of an iteration whose [el] is the given element. *)
Fixpoint offset_loop (horizontal : bool) (e : HTMLElement)
    (totalOffset : number) : number :=
  let totalOffset :=
    totalOffset + (if horizontal then offsetLeft e else offsetTop e) in
  match offsetParent e with
  | Some p => offset_loop horizontal p totalOffset
  | None => totalOffset
  end.

Definition getOffset (w : Window) (target : Any) (horizontal rtl : bool)
    : number :=
  match target with
  | ANumber n => if horizontal && rtl then - n else n
  | ADescriptor d =>
      match getTarget w d with
      | Some e => offset_loop horizontal e 0
      | None => 0
      end
  end.

(** ** Effects *)

(** What the module does to the outside world, in program order. *)
Inductive Event : Type :=
| ConsoleLog (min max value : number)
| ScrollWrite (container : positive) (horizontal : bool) (location : number)
| RequestAnimationFrame.

Inductive Exception : Type :=
| TypeError (message : string)
| Error (message : string)
(* the engine's own TypeError on reading a property of [null] *)
| NullTypeError.

Inductive Result (A : Type) : Type :=
| Ok (a : A)
| Throw (e : Exception).
Arguments Ok {A} a.
Arguments Throw {A} e.

(** A computation returns or throws, and leaves a trace of events. *)
Definition M (A : Type) : Type := (Result A * list Event)%type.

Definition ret {A} (a : A) : M A := (Ok a, nil).
Definition throw {A} (e : Exception) : M A := (Throw e, nil).
Definition emit (e : Event) : M unit := (Ok tt, e :: nil).

Definition bind {A B} (m : M A) (k : A -> M B) : M B :=
  match m with
  | (Ok a, t) => let (r, t') := k a in (r, (t ++ t')%list)
  | (Throw e, t) => (Throw e, t)
  end.

Notation "'do' x <- m ; k" := (bind m (fun x => k))
  (at level 10, x name, m at level 100, k at level 200).
Notation "'exec' m ; k" := (bind m (fun _ => k))
  (at level 10, m at level 100, k at level 200).

Definition result {A} (m : M A) : Result A := fst m.
Definition trace {A} (m : M A) : list Event := snd m.

Definition is_frame_request (e : Event) : bool :=
  match e with RequestAnimationFrame => true | _ => false end.

Definition is_console_log (e : Event) : bool :=
  match e with ConsoleLog _ _ _ => true | _ => false end.

Definition is_scroll_write (e : Event) : bool :=
  match e with ScrollWrite _ _ _ => true | _ => false end.

(** Number of animation frames requested in a trace. *)
Definition frames_scheduled (t : list Event) : nat :=
  List.length (List.filter is_frame_request t).

(** ** Clamp function *)

Definition clamp_min (container : HTMLElement) (rtl horizontal : bool)
    : number :=
  if horizontal then
    if rtl then - (scrollWidth container - offsetWidth container) else 0
  else 0.

Definition clamp_max (container : HTMLElement) (rtl horizontal : bool)
    : number :=
  if horizontal then
    if rtl then 0 else scrollWidth container - offsetWidth container
  else scrollHeight container + - offsetHeight container.

(** [min] and [max] start at the infinities and are overwritten on every
    branch; [clamp_min] and [clamp_max] are their values at the [return]. *)
Definition clampTarget (container : HTMLElement) (value : number)
    (rtl horizontal : bool) : M number :=
  let min := clamp_min container rtl horizontal in
  let max := clamp_max container rtl horizontal in
  exec emit (ConsoleLog min max value);
  ret (Qmax (Qmin value max) min).

(** ** Options and the easing library *)

Inductive Easing : Type :=
| EasingName (name : string)
| EasingFunction (f : number -> number).

Record GoToOptions : Type := mkGoToOptions {
  container : Descriptor;
  duration : number;
  layout : bool;
  offset : number;
  easing : Easing;
  patterns : gmap string (number -> number)
}.

(** [Partial<GoToOptions>]: [None] is an absent key. *)
Record PartialGoToOptions : Type := mkPartial {
  p_container : option Descriptor;
  p_duration : option number;
  p_layout : option bool;
  p_offset : option number;
  p_easing : option Easing;
  p_patterns : option (gmap string (number -> number))
}.

(** [{}] *)
Definition no_options : PartialGoToOptions :=
  mkPartial None None None None None None.

(** [t < 0.5] *)
Definition first_half (t : number) : bool := negb (Qle_bool (1 # 2) t).

Definition linear (t : number) : number := t.
Definition easeInQuad (t : number) : number := t ^ 2.
Definition easeOutQuad (t : number) : number := t * (2 - t).
Definition easeInOutQuad (t : number) : number :=
  if first_half t then 2 * t ^ 2 else - (1) + (4 - 2 * t) * t.
Definition easeInCubic (t : number) : number := t ^ 3.
Definition easeOutCubic (t : number) : number := (t - 1) ^ 3 + 1.
Definition easeInOutCubic (t : number) : number :=
  if first_half t then 4 * t ^ 3 else (t - 1) * (2 * t - 2) * (2 * t - 2) + 1.
Definition easeInQuart (t : number) : number := t ^ 4.
Definition easeOutQuart (t : number) : number := 1 - (t - 1) ^ 4.
Definition easeInOutQuart (t : number) : number :=
  if first_half t then 8 * t ^ 4 else 1 - 8 * (t - 1) ^ 4.
Definition easeInQuint (t : number) : number := t ^ 5.
Definition easeOutQuint (t : number) : number := 1 + (t - 1) ^ 5.
Definition easeInOutQuint (t : number) : number :=
  if first_half t then 16 * t ^ 5 else 1 + 16 * (t - 1) ^ 5.

Definition default_patterns : gmap string (number -> number) :=
  list_to_map
    (("linear"%string, linear) ::
     ("easeInQuad"%string, easeInQuad) ::
     ("easeOutQuad"%string, easeOutQuad) ::
     ("easeInOutQuad"%string, easeInOutQuad) ::
     ("easeInCubic"%string, easeInCubic) ::
     ("easeOutCubic"%string, easeOutCubic) ::
     ("easeInOutCubic"%string, easeInOutCubic) ::
     ("easeInQuart"%string, easeInQuart) ::
     ("easeOutQuart"%string, easeOutQuart) ::
     ("easeInOutQuart"%string, easeInOutQuart) ::
     ("easeInQuint"%string, easeInQuint) ::
     ("easeOutQuint"%string, easeOutQuint) ::
     ("easeInOutQuint"%string, easeInOutQuint) :: nil).

Definition genDefaults : GoToOptions :=
  mkGoToOptions DUndefined 300 false 0 (EasingName "easeInOutCubic")
    default_patterns.

(** Modelled from the spec: [mergeDeep] of [@/util] is not part of this
    module.  The second layer wins on every key it has, and the nested
    [patterns] maps are merged entry by entry, the second layer's entries
    overriding those of the same name. *)
Definition mergeDeep (source : GoToOptions) (target : PartialGoToOptions)
    : GoToOptions :=
  mkGoToOptions
    (default (container source) (p_container target))
    (default (duration source) (p_duration target))
    (default (layout source) (p_layout target))
    (default (offset source) (p_offset target))
    (default (easing source) (p_easing target))
    (match p_patterns target with
     | Some p => p ∪ patterns source
     | None => patterns source
     end).

(** Modelled from the spec: [mergeDeep] on two partial layers. *)
Definition mergeDeep_partial (source target : PartialGoToOptions)
    : PartialGoToOptions :=
  let over {A} (s t : option A) : option A :=
    match t with Some x => Some x | None => s end in
  mkPartial
    (over (p_container source) (p_container target))
    (over (p_duration source) (p_duration target))
    (over (p_layout source) (p_layout target))
    (over (p_offset source) (p_offset target))
    (over (p_easing source) (p_easing target))
    (match p_patterns source, p_patterns target with
     | Some s, Some t => Some (t ∪ s)
     | s, None => s
     | None, t => t
     end).

(** ** Scroll animator *)

(** The double-quote character of the error message. *)
Definition dquote : string := String (Ascii.ascii_of_nat 34) EmptyString.

Definition easing_not_found (e : Easing) : string :=
  match e with
  | EasingName name =>
      ("Easing function " ++ dquote ++ name ++ dquote ++ " not found.")%string
  | EasingFunction _ => "Easing function not found."%string
  end.

(** The closure of the frame callback [step]: the variables of [scrollTo] it
    reads, with the container in its current state. *)
Record Run : Type := mkRun {
  run_container : HTMLElement;
  run_duration : number;
  run_ease : number -> number;
  run_horizontal : bool;
  run_startLocation : number;
  run_targetLocation : number;
  run_startTime : number
}.

(** The promise returned by [scrollTo]: resolved with a value, or pending
    with [step] registered for the next animation frame. *)
Inductive Promise : Type :=
| Resolved (value : number)
| Pending (run : Run).

(** [Math.abs(options.duration ? Math.min(timeElapsed / options.duration, 1) : 1)] *)
Definition progress_at (duration timeElapsed : number) : number :=
  Qabs (if truthy duration then Qmin (timeElapsed / duration) 1 else 1).

(** [container[horizontal ? 'scrollLeft' : 'scrollTop'] = location] *)
Definition write_scroll (c : HTMLElement) (horizontal : bool)
    (location : number) : M HTMLElement :=
  exec emit (ScrollWrite (node c) horizontal location);
  ret (if horizontal then set_scrollLeft c location
       else set_scrollTop c location).

(** [requestAnimationFrame(step)] with the closure as it is now. *)
Definition requestAnimationFrame (r : Run) : M Promise :=
  exec emit RequestAnimationFrame;
  ret (Pending r).

(** One call of the frame callback with timestamp [currentTime]. *)
Definition step (w : Window) (r : Run) (currentTime : number) : M Promise :=
  let horizontal := run_horizontal r in
  let targetLocation := run_targetLocation r in
  let startLocation := run_startLocation r in
  let timeElapsed := currentTime - run_startTime r in
  let progress := progress_at (run_duration r) timeElapsed in
  let location :=
    Math_floor
      (startLocation + (targetLocation - startLocation) * run_ease r progress) in
  do container <- write_scroll (run_container r) horizontal location;
  let r' :=
    mkRun container (run_duration r) (run_ease r) horizontal startLocation
      targetLocation (run_startTime r) in
  if Qeq_bool progress 1 then ret (Resolved targetLocation)
  else if negb horizontal then
    let clientSize :=
      if same_node container (body w) then clientHeight (documentElement w)
      else clientHeight container in
    let reachEnd :=
      geb (clientSize + scrollTop container) (scrollHeight container) in
    if gtb targetLocation (scrollTop container) && reachEnd
    then ret (Resolved targetLocation)
    else requestAnimationFrame r'
  else
    let clientSize :=
      if same_node container (body w) then clientWidth (documentElement w)
      else clientWidth container in
    let reachEnd :=
      geb (clientSize + scrollLeft container) (scrollWidth container) in
    if gtb targetLocation (scrollLeft container) && reachEnd
    then ret (Resolved targetLocation)
    else requestAnimationFrame r'.

(** The browser calls the pending callback once per timestamp of [times],
    until the promise is resolved. *)
Fixpoint animate (w : Window) (p : Promise) (times : list number)
    : M Promise :=
  match p, times with
  | Pending r, t :: times' => do p' <- step w r t; animate w p' times'
  | _, _ => ret p
  end.

Section Animator.

Context {Σ : Type}.

(** A [Ref<A>] is read in the state the reactive system has at that moment;
    [computed] re-evaluates its getter on every read. *)
Definition Ref (A : Type) : Type := Σ -> A.
Definition computed {A} (getter : Σ -> A) : Ref A := getter.
Definition value {A} (r : Ref A) (σ : Σ) : A := r σ.

Record GoToInstance : Type := mkGoToInstance {
  rtl : Ref bool;
  options : GoToOptions
}.

Definition createGoTo (opts : option PartialGoToOptions)
    (locale_isRtl : Ref bool) : GoToInstance :=
  mkGoToInstance locale_isRtl (mergeDeep genDefaults (default no_options opts)).

(** Lines 87 to 90: the target as a number or an element, and the container
    ([None] when [parentElement] is [null]). *)
Definition resolve_target (w : Window) (_target : Any) : Any :=
  match _target with
  | ANumber n => ANumber n
  | ADescriptor d =>
      match getTarget w d with
      | Some e => ADescriptor (DElement e)
      | None => ANumber 0
      end
  end.

Definition is_parent (d : Descriptor) : bool :=
  match d with
  | DString s => if decide (s = "parent"%string) then true else false
  | _ => false
  end.

Definition resolve_container (w : Window) (opts : GoToOptions) (target : Any)
    : option HTMLElement :=
  match target with
  | ADescriptor (DElement e) =>
      if is_parent (container opts) then parentElement e
      else Some (getContainer w (container opts))
  | _ => Some (getContainer w (container opts))
  end.

(** Line 91. *)
Definition resolve_ease (opts : GoToOptions) : option (number -> number) :=
  match easing opts with
  | EasingFunction f => Some f
  | EasingName name => patterns opts !! name
  end.

(** Lines 95 to 109: the target location before clamping. *)
Definition raw_targetLocation (w : Window) (opts : GoToOptions) (target : Any)
    (container : option HTMLElement) (horizontal rtl : bool) : number :=
  let targetLocation :=
    match target with
    | ANumber _ => getOffset w target horizontal rtl
    | ADescriptor d =>
        let targetLocation :=
          getOffset w target horizontal rtl
          - getOffset w
              (ADescriptor
                 (match container with Some c => DElement c | None => DUndefined end))
              horizontal rtl in
        if layout opts then
          match d with
          | DElement e =>
              match layoutTop w e with
              | Some layoutOffset => targetLocation - layoutOffset
              | None => targetLocation
              end
          | _ => targetLocation
          end
        else targetLocation
    end in
  targetLocation + offset opts.

Definition startLocation_of (c : HTMLElement) (horizontal : bool) : number :=
  if horizontal then scrollLeft c else scrollTop c.

(** [goTo] is passed by every caller, and an exception thrown in the body of
    this [async] function is the rejection of the promise it returns. *)
Definition scrollTo (w : Window) (σ : Σ) (_target : Any)
    (_options : PartialGoToOptions) (horizontal : bool) (goTo : GoToInstance)
    : M Promise :=
  let opts := mergeDeep (options goTo) _options in
  let rtl := value (rtl goTo) σ in
  let target := resolve_target w _target in
  let container := resolve_container w opts target in
  match resolve_ease opts with
  | None => throw (TypeError (easing_not_found (easing opts)))
  | Some ease =>
      let targetLocation :=
        raw_targetLocation w opts target container horizontal rtl in
      match container with
      | None => throw NullTypeError
      | Some container =>
          do targetLocation <- clampTarget container targetLocation rtl horizontal;
          let startLocation := startLocation_of container horizontal in
          if Qeq_bool targetLocation startLocation
          then ret (Resolved targetLocation)
          else
            let startTime := now w in
            requestAnimationFrame
              (mkRun container (duration opts) ease horizontal startLocation
                 targetLocation startTime)
      end
  end.

(** ** Public facade *)

Record GoFunction : Type := mkGoFunction {
  go : Window -> Σ -> Any -> option PartialGoToOptions -> M Promise;
  go_horizontal : Window -> Σ -> Any -> option PartialGoToOptions -> M Promise
}.

(** [injected] is what [inject(GoToSymbol)] returns and [isRtl] what
    [useRtl()] returns in the calling component. *)
Definition useGoTo (injected : option GoToInstance) (isRtl : Ref bool)
    (_options : PartialGoToOptions) : Result GoFunction :=
  match injected with
  | None => Throw (Error "[Vuetify] Could not find injected goto instance")
  | Some goToInstance =>
      let goTo :=
        mkGoToInstance
          (computed (fun σ => value (rtl goToInstance) σ || value isRtl σ))
          (options goToInstance) in
      Ok (mkGoFunction
            (fun w σ target opts =>
               scrollTo w σ target
                 (mergeDeep_partial _options (default no_options opts))
                 false goTo)
            (fun w σ target opts =>
               scrollTo w σ target
                 (mergeDeep_partial _options (default no_options opts))
                 true goTo))
  end.

End Animator.

Arguments GoToInstance : clear implicits.
Arguments GoFunction : clear implicits.
Arguments Ref : clear implicits.

(** ** Notions of the specification *)

(** The element, its offset parent, that parent's offset parent, and so on. *)
Fixpoint offset_chain (e : HTMLElement) : list HTMLElement :=
  e :: match offsetParent e with
       | Some p => offset_chain p
       | None => nil
       end.

(** [offsetLeft] when horizontal, [offsetTop] when vertical. *)
Definition axis_offset (horizontal : bool) (e : HTMLElement) : number :=
  if horizontal then offsetLeft e else offsetTop e.

Definition sum (l : list number) : number := fold_right Qplus 0 l.

(** Sum of the per-axis offsets over the offset-parent chain. *)
Definition chain_offset (horizontal : bool) (e : HTMLElement) : number :=
  sum (map (axis_offset horizontal) (offset_chain e)).

(** The per-axis readings used by the boundary check of [step]. *)
Definition scroll_position (c : HTMLElement) (horizontal : bool) : number :=
  if horizontal then scrollLeft c else scrollTop c.

Definition scroll_size (c : HTMLElement) (horizontal : bool) : number :=
  if horizontal then scrollWidth c else scrollHeight c.

Definition client_size (w : Window) (c : HTMLElement) (horizontal : bool)
    : number :=
  if same_node c (body w)
  then (if horizontal then clientWidth (documentElement w)
        else clientHeight (documentElement w))
  else (if horizontal then clientWidth c else clientHeight c).

(** The container after [container[axis] = location]. *)
Definition scrolled (c : HTMLElement) (horizontal : bool) (location : number)
    : HTMLElement :=
  if horizontal then set_scrollLeft c location else set_scrollTop c location.


(** [floor(startLocation + (targetLocation - startLocation) * eased)] *)
Definition location_at (r : Run) (progress : number) : number :=
  Math_floor
    (run_startLocation r
     + (run_targetLocation r - run_startLocation r) * run_ease r progress).

(** The location [step] writes on the frame with timestamp [currentTime],
    and the closure after that write. *)
Definition frame_progress (r : Run) (currentTime : number) : number :=
  progress_at (run_duration r) (currentTime - run_startTime r).

Definition frame_location (r : Run) (currentTime : number) : number :=
  location_at r (frame_progress r currentTime).

Definition after_frame (r : Run) (currentTime : number) : Run :=
  mkRun
    (scrolled (run_container r) (run_horizontal r) (frame_location r currentTime))
    (run_duration r) (run_ease r) (run_horizontal r) (run_startLocation r)
    (run_targetLocation r) (run_startTime r).

(** The boundary test of [step] on a container: the client size plus the
    scroll offset has reached the scroll size, and the target lies beyond the
    scroll offset. *)
Definition at_boundary (w : Window) (c : HTMLElement) (horizontal : bool)
    : bool :=
  geb (client_size w c horizontal + scroll_position c horizontal)
    (scroll_size c horizontal).

Definition stops_early (w : Window) (c : HTMLElement) (horizontal : bool)
    (targetLocation : number) : bool :=
  gtb targetLocation (scroll_position c horizontal) && at_boundary w c horizontal.

(** The options, the right-to-left flag, the target and the container of a
    call of [scrollTo], and the target location it computes for a container
    (the clamped one). *)
Definition call_options {Σ} (goTo : GoToInstance Σ)
    (_options : PartialGoToOptions) : GoToOptions :=
  mergeDeep (options goTo) _options.

Definition call_rtl {Σ} (goTo : GoToInstance Σ) (σ : Σ) : bool :=
  value (rtl goTo) σ.

Definition call_container {Σ} (w : Window) (_target : Any)
    (_options : PartialGoToOptions) (goTo : GoToInstance Σ)
    : option HTMLElement :=
  resolve_container w (call_options goTo _options) (resolve_target w _target).

Definition call_targetLocation {Σ} (w : Window) (σ : Σ) (_target : Any)
    (_options : PartialGoToOptions) (horizontal : bool)
    (goTo : GoToInstance Σ) (c : HTMLElement) : M number :=
  clampTarget c
    (raw_targetLocation w (call_options goTo _options)
       (resolve_target w _target) (Some c) horizontal (call_rtl goTo σ))
    (call_rtl goTo σ) horizontal.


(** ** Example documents *)

(** An element at the given vertical offset under the given offset parent;
    the rest of its geometry is zero. *)
Definition positioned (n : positive) (top : number)
    (parent : option HTMLElement) : HTMLElement :=
  mkHTMLElement n 0 top 0 0 0 0 0 0 0 0 parent parent.

Definition level3 : HTMLElement := positioned 3 30 None.
Definition level2 : HTMLElement := positioned 2 20 (Some level3).
Definition level1 : HTMLElement := positioned 1 10 (Some level2).

(** A container 400 wide and 300 high showing content 1000 wide. *)
Definition wide_box : HTMLElement :=
  mkHTMLElement 10 0 0 400 300 400 300 1000 300 0 0 None None.

(** A quirks-mode document: the body is the scrolling element, its box is
    400 high, the document 1000 high, the viewport 600 high, and the page is
    scrolled to the bottom. *)
Definition page_body : HTMLElement :=
  mkHTMLElement 100 0 0 800 400 800 400 800 1000 0 400 None None.

Definition page_root : HTMLElement :=
  mkHTMLElement 101 0 0 800 600 800 600 800 1000 0 0 None None.

Definition page : Window :=
  mkWindow (fun _ => None) (Some page_body) page_body page_root
    (fun _ => None) 1000.

(** An easing that backs up before it advances, [1] at the end. *)
Definition easeInBack (t : number) : number := t * t * (3 * t - 2).

(** A run over 300 ms from 0 to 100 on a vertical container, started at
    time 1000, with linear easing. *)
Definition tall_box : HTMLElement :=
  mkHTMLElement 20 0 0 400 300 400 300 400 1000 0 0 None None.

Definition linear_run : Run := mkRun tall_box 300 linear false 0 100 1000.


(** The shared instance of an application without options, left to right. *)
Definition shared : GoToInstance unit := createGoTo None (fun _ => false).

Definition with_easing (e : Easing) : PartialGoToOptions :=
  mkPartial None None None None (Some e) None.

Definition with_duration (d : number) : PartialGoToOptions :=
  mkPartial None (Some d) None None None None.

Definition with_container (c : HTMLElement) : PartialGoToOptions :=
  mkPartial (Some (DElement c)) None None None None None.

(** Runs on the page, which is scrolled to the bottom: towards a target below
    the bottom with the backing-up easing and with the linear one, and back
    to the top. *)
Definition back_run : Run := mkRun page_body 300 easeInBack false 400 600 1000.
Definition down_run : Run := mkRun page_body 300 linear false 400 600 1000.
Definition up_run : Run := mkRun page_body 300 linear false 400 0 1000.

(** A component under a locale provider that turns right-to-left on, in an
    application whose own locale is left to right. *)
Definition under_rtl_provider : Result (GoFunction unit) :=
  useGoTo (Some shared) (fun _ => true) no_options.

(** ** Shapes of the built-in easings *)

(** [t] multiplied [k] times. *)
Fixpoint upow (k : nat) (t : number) : number :=
  match k with
  | O => 1
  | S k' => t * upow k' t
  end.

(** The three families of the library: ease in, ease out and ease in-out of
    degree [k]. *)
Definition shape_in (k : nat) (t : number) : number := upow k t.

Definition shape_out (k : nat) (t : number) : number := 1 - upow k (1 - t).

Definition shape_inout (k : nat) (t : number) : number :=
  if first_half t then (1 # 2) * upow k (2 * t)
  else 1 - (1 # 2) * upow k (2 * (1 - t)).

(** [f] is, pointwise, a curve of one of the three families. *)
Definition has_shape (f : number -> number) : Prop :=
  exists k : nat,
    (1 <= k)%nat
    /\ ((forall t, f t == shape_in k t)
        \/ (forall t, f t == shape_out k t)
        \/ (forall t, f t == shape_inout k t)).

(** The outer size of a container on an axis. *)
Definition offset_size (c : HTMLElement) (horizontal : bool) : number :=
  if horizontal then offsetWidth c else offsetHeight c.

(** Options that name the target's parent as the container. *)
Definition in_parent : PartialGoToOptions :=
  mkPartial (Some (DString "parent")) None None None None None.

(** The pixels taken off an element target for the layout, when the option
    is set and the element reports a layout top. *)
Definition layout_adjustment (w : Window) (opts : GoToOptions)
    (e : HTMLElement) : number :=
  if layout opts then
    match layoutTop w e with
    | Some layoutOffset => layoutOffset
    | None => 0
    end
  else 0.

(** ** A whole call *)

(** A call of [scrollTo] followed by the animation frames the browser runs
    at the given timestamps. *)
Definition scroll_session {Σ} (w : Window) (σ : Σ) (_target : Any)
    (_options : PartialGoToOptions) (horizontal : bool)
    (goTo : GoToInstance Σ) (times : list number) : M Promise :=
  do p <- scrollTo w σ _target _options horizontal goTo;
  animate w p times.

(** The events [step] may leave for a run: writes to the scroll position of
    its container on its axis, and frame requests. *)
Definition run_event (r : Run) (e : Event) : Prop :=
  e = RequestAnimationFrame
  \/ exists v, e = ScrollWrite (node (run_container r)) (run_horizontal r) v.

(** ** Basic facts *)

(** Induction along the offset-parent chain. *)
Lemma offsetParent_ind (P : HTMLElement -> Prop)
    (Hroot : forall e, offsetParent e = None -> P e)
    (Hstep : forall e p, offsetParent e = Some p -> P p -> P e) :
  forall e, P e.
Proof.
  fix IH 1. intros e.
  destruct e as [n oL oT oW oH cW cH sW sH sL sT [p|] pe].
  - apply (Hstep _ p); [reflexivity | apply IH].
  - apply Hroot. reflexivity.
Qed.

Lemma offset_chain_unfold e :
  offset_chain e
  = e :: match offsetParent e with Some p => offset_chain p | None => nil end.
Proof. destruct e; reflexivity. Qed.

Lemma offset_loop_unfold horizontal e total :
  offset_loop horizontal e total
  = match offsetParent e with
    | Some p => offset_loop horizontal p (total + axis_offset horizontal e)
    | None => total + axis_offset horizontal e
    end.
Proof. destruct e; reflexivity. Qed.

(** The accumulating loop adds the chain's offsets to what it starts with. *)
Lemma offset_loop_sum horizontal e :
  forall total,
    offset_loop horizontal e total == total + chain_offset horizontal e.
Proof.
  induction e as [e Hnone | e p Hsome IH] using offsetParent_ind; intros total.
  - rewrite offset_loop_unfold. unfold chain_offset.
    rewrite offset_chain_unfold, Hnone. simpl. ring.
  - rewrite offset_loop_unfold. unfold chain_offset.
    rewrite offset_chain_unfold, Hsome. rewrite IH.
    unfold chain_offset. simpl. ring.
Qed.

Lemma gtb_lt a b : gtb a b = true <-> b < a.
Proof.
  unfold gtb. rewrite negb_true_iff, <- not_true_iff_false, Qle_bool_iff.
  split; [apply Qnot_le_lt | apply Qlt_not_le].
Qed.

Lemma gtb_le a b : gtb a b = false <-> a <= b.
Proof.
  unfold gtb. rewrite negb_false_iff, Qle_bool_iff. reflexivity.
Qed.

Lemma geb_le a b : geb a b = true <-> b <= a.
Proof. unfold geb. apply Qle_bool_iff. Qed.

(** Clamping into a range, applied twice, is clamping once. *)
Lemma clamp_twice (v lo hi : number) :
  Qmax (Qmin (Qmax (Qmin v hi) lo) hi) lo == Qmax (Qmin v hi) lo.
Proof.
  destruct (Q.min_spec v hi) as [[H1 E1] | [H1 E1]];
  destruct (Q.max_spec (Qmin v hi) lo) as [[H2 E2] | [H2 E2]];
  rewrite E2;
  destruct (Q.min_spec lo hi) as [[H3 E3] | [H3 E3]];
  destruct (Q.min_spec (Qmin v hi) hi) as [[H4 E4] | [H4 E4]];
  rewrite ?E3, ?E4;
  try (destruct (Q.max_spec lo lo) as [[H5 E5] | [H5 E5]]; rewrite E5);
  try (destruct (Q.max_spec hi lo) as [[H6 E6] | [H6 E6]]; rewrite E6);
  try (destruct (Q.max_spec (Qmin v hi) lo) as [[H7 E7] | [H7 E7]]; rewrite E7);
  rewrite ?E1 in *; try reflexivity; lra.
Qed.

(** ** Offset calculator: the claims *)

(** C8.  A numeric target is returned unchanged by [getOffset], unless both
    [horizontal] and [rtl] are set, in which case it is negated; so
    [getOffset(50, true, true)] is [-50] and [getOffset(50, true, false)]
    is [50]. *)
Theorem getOffset_number :
  forall (w : Window) (n : number) (horizontal rtl : bool),
    getOffset w (ANumber n) horizontal rtl
      = (if horizontal && rtl then - n else n)
    /\ getOffset w (ANumber n) true true = - n
    /\ getOffset w (ANumber n) true false = n
    /\ getOffset w (ANumber n) false rtl = n
    /\ getOffset w (ANumber 50) true true = -50
    /\ getOffset w (ANumber 50) true false = 50.
Proof.
  intros w n horizontal rtl. repeat split; reflexivity.
Qed.

(** C9.  For an element target [getOffset] is the sum of the per-axis offsets
    ([offsetLeft] when horizontal, [offsetTop] when vertical) over the element
    and its successive offset parents; three levels with vertical offsets 10,
    20 and 30 give 60; a target that resolves to nothing gives 0. *)
Theorem getOffset_element :
  (forall (w : Window) (e : HTMLElement) (horizontal rtl : bool),
      getOffset w (ADescriptor (DElement e)) horizontal rtl
        == sum (map (axis_offset horizontal) (offset_chain e)))
  /\ (forall (w : Window) (d : Descriptor) (horizontal rtl : bool),
        getOffset w (ADescriptor d) horizontal rtl
          == match getTarget w d with
             | Some e => chain_offset horizontal e
             | None => 0
             end)
  /\ (forall (w : Window) (rtl : bool),
        map offsetTop (offset_chain level1) = (10 :: 20 :: 30 :: nil)%list
        /\ getOffset w (ADescriptor (DElement level1)) false rtl == 60)
  /\ (forall (w : Window) (horizontal rtl : bool),
        getOffset w (ADescriptor DUndefined) horizontal rtl = 0
        /\ getOffset w (ADescriptor (DComponent (mkComponent None)))
             horizontal rtl = 0).
Proof.
  split; [| split; [| split]].
  - intros w e horizontal rtl. simpl.
    rewrite offset_loop_sum. unfold chain_offset. ring.
  - intros w d horizontal rtl. unfold getOffset.
    destruct (getTarget w d) as [e|]; [| reflexivity].
    rewrite offset_loop_sum. ring.
  - intros w rtl. split; reflexivity.
  - intros w horizontal rtl. split; reflexivity.
Qed.

(** ** Clamp function: the claims *)

(** C2.  [clampTarget] returns [max(min(value, max), min)] with the bounds of
    the table: horizontal ltr [0 .. scrollWidth - offsetWidth], horizontal
    rtl [-(scrollWidth - offsetWidth) .. 0], vertical
    [0 .. scrollHeight - offsetHeight].  With [scrollWidth = 1000] and
    [offsetWidth = 400] the rtl range is [-600 .. 0] and 500 clamps to 0.  It
    returns for every container, and clamping a clamped value returns it
    unchanged. *)
Theorem clampTarget_spec :
  forall (c : HTMLElement) (v : number),
    (* the table *)
    result (clampTarget c v false true)
      = Ok (Qmax (Qmin v (scrollWidth c - offsetWidth c)) 0)
    /\ result (clampTarget c v true true)
      = Ok (Qmax (Qmin v 0) (- (scrollWidth c - offsetWidth c)))
    /\ (forall rtl,
          result (clampTarget c v rtl false)
            = Ok (Qmax (Qmin v (scrollHeight c - offsetHeight c)) 0))
    (* the right-to-left example *)
    /\ clamp_min wide_box true true == -600
    /\ clamp_max wide_box true true == 0
    /\ (exists r, result (clampTarget wide_box v true true) = Ok r
                  /\ -600 <= r <= 0)
    /\ result (clampTarget wide_box 500 true true) = Ok 0
    (* a container without size *)
    /\ (forall rtl horizontal,
          exists r,
            result (clampTarget (positioned 1 0 None) v rtl horizontal) = Ok r
            /\ r == 0)
    (* total and idempotent *)
    /\ (forall rtl horizontal,
          exists r, result (clampTarget c v rtl horizontal) = Ok r
            /\ exists r', result (clampTarget c r rtl horizontal) = Ok r'
                 /\ r' == r).
Proof.
  intros c v.
  split; [reflexivity |]. split; [reflexivity |].
  split; [intros [|]; reflexivity |].
  split; [reflexivity |]. split; [reflexivity |].
  split; [| split; [reflexivity |]]; [| split].
  - eexists. split; [reflexivity |].
    change (clamp_max wide_box true true) with 0.
    change (clamp_min wide_box true true) with (- (1000 - 400)).
    split.
    + apply Qle_trans with (y := - (1000 - 400)); [| apply Q.le_max_r].
      vm_compute. discriminate.
    + apply Q.max_lub; [apply Q.le_min_r | vm_compute; discriminate].
  - intros rtl horizontal. eexists. split; [reflexivity |].
    rewrite Q.max_r.
    + destruct rtl, horizontal; reflexivity.
    + apply Qle_trans with (y := clamp_max (positioned 1 0 None) rtl horizontal);
        [apply Q.le_min_r |].
      destruct rtl, horizontal; vm_compute; discriminate.
  - intros rtl horizontal. eexists. split; [reflexivity |].
    eexists. split; [reflexivity |]. apply clamp_twice.
Qed.

(** ** The frame callback *)


(** [step] in one piece: one scroll write, then either the resolution or the
    request of the next frame. *)
Lemma step_normal (w : Window) (r : Run) (currentTime : number) :
  let written :=
    ScrollWrite (node (run_container r)) (run_horizontal r)
      (frame_location r currentTime) in
  let r' := after_frame r currentTime in
  step w r currentTime =
    if Qeq_bool (frame_progress r currentTime) 1
       || stops_early w (run_container r') (run_horizontal r)
            (run_targetLocation r)
    then (Ok (Resolved (run_targetLocation r)), written :: nil)
    else (Ok (Pending r'), written :: RequestAnimationFrame :: nil).
Proof.
  unfold step, after_frame, frame_location, frame_progress, location_at,
    stops_early, at_boundary, client_size, scroll_position, scroll_size,
    scrolled, same_node.
  cbv beta iota zeta delta [bind emit ret write_scroll requestAnimationFrame].
  cbn [run_container run_horizontal app].
  destruct (Qeq_bool _ 1); cbn [orb];
    destruct (run_horizontal r); cbn [negb]; [reflexivity | reflexivity | |].
  - cbn [set_scrollLeft node scrollLeft scrollWidth clientWidth].
    match goal with |- context [if ?b && ?b' then _ else _] =>
      destruct (b && b') end; reflexivity.
  - cbn [set_scrollTop node scrollTop scrollHeight clientHeight].
    match goal with |- context [if ?b && ?b' then _ else _] =>
      destruct (b && b') end; reflexivity.
Qed.

Lemma animate_resolved w v times :
  animate w (Resolved v) times = ret (Resolved v).
Proof. destruct times; reflexivity. Qed.



(** The runs of the examples are runs that calls of [scrollTo] start. *)
Example linear_run_started :
  result (scrollTo page tt (ANumber 100)
            (mkPartial (Some (DElement tall_box)) None None None
               (Some (EasingName "linear")) None) false shared)
  = Ok (Pending linear_run).
Proof. vm_compute. reflexivity. Qed.

Example down_run_started :
  result (scrollTo page tt (ANumber 5000)
            (with_easing (EasingName "linear")) false shared)
  = Ok (Pending down_run).
Proof. vm_compute. reflexivity. Qed.

Example up_run_started :
  result (scrollTo page tt (ANumber 0)
            (with_easing (EasingName "linear")) false shared)
  = Ok (Pending up_run).
Proof. vm_compute. reflexivity. Qed.


(** ** The scroll animator *)

Lemma clampTarget_normal c v rtl horizontal :
  clampTarget c v rtl horizontal
  = (Ok (Qmax (Qmin v (clamp_max c rtl horizontal)) (clamp_min c rtl horizontal)),
     ConsoleLog (clamp_min c rtl horizontal) (clamp_max c rtl horizontal) v
       :: nil).
Proof. reflexivity. Qed.

(** [scrollTo] once the easing and the container are resolved: the clamp,
    then the immediate resolution or the request of the first frame. *)
Lemma scrollTo_normal {Σ} (w : Window) (σ : Σ) (_target : Any)
    (_options : PartialGoToOptions) (horizontal : bool)
    (goTo : GoToInstance Σ) (ease : number -> number) (c : HTMLElement)
    (targetLocation : number) (t : list Event) :
  resolve_ease (call_options goTo _options) = Some ease ->
  call_container w _target _options goTo = Some c ->
  call_targetLocation w σ _target _options horizontal goTo c
    = (Ok targetLocation, t) ->
  scrollTo w σ _target _options horizontal goTo =
    if Qeq_bool targetLocation (scroll_position c horizontal)
    then (Ok (Resolved targetLocation), t)
    else (Ok (Pending
                (mkRun c (duration (call_options goTo _options)) ease
                   horizontal (scroll_position c horizontal) targetLocation
                   (now w))),
          (t ++ RequestAnimationFrame :: nil)%list).
Proof.
  unfold call_container, call_targetLocation, call_rtl, call_options, scrollTo.
  intros He Hc Ht. rewrite He, Hc, Ht.
  cbv beta iota zeta delta [bind ret requestAnimationFrame emit].
  fold (scroll_position c horizontal).
  destruct (Qeq_bool _ _); cbn [app]; rewrite ?app_nil_r; reflexivity.
Qed.

(** C5.  When the clamped target location of a call equals the current scroll
    position of the container on the requested axis, the promise is resolved
    at once with that value: no frame is requested and nothing is scrolled. *)
Theorem already_at_target :
  forall {Σ} (w : Window) (σ : Σ) (_target : Any)
    (_options : PartialGoToOptions) (horizontal : bool)
    (goTo : GoToInstance Σ) (ease : number -> number) (c : HTMLElement)
    (targetLocation : number) (t : list Event),
    resolve_ease (call_options goTo _options) = Some ease ->
    call_container w _target _options goTo = Some c ->
    call_targetLocation w σ _target _options horizontal goTo c
      = (Ok targetLocation, t) ->
    targetLocation == scroll_position c horizontal ->
    result (scrollTo w σ _target _options horizontal goTo)
      = Ok (Resolved targetLocation)
    /\ frames_scheduled (trace (scrollTo w σ _target _options horizontal goTo))
       = 0%nat
    /\ filter is_scroll_write
         (trace (scrollTo w σ _target _options horizontal goTo)) = nil.
Proof.
  intros Σ w σ _target _options horizontal goTo ease c targetLocation t
    He Hc Ht Heq.
  rewrite (scrollTo_normal _ _ _ _ _ _ _ _ _ _ He Hc Ht).
  apply Qeq_bool_iff in Heq. rewrite Heq.
  unfold call_targetLocation in Ht. rewrite clampTarget_normal in Ht.
  injection Ht as _ <-. repeat split.
Qed.

Lemma already_at_target_witness :
  result (scrollTo page tt (ANumber 400) no_options false shared)
    = Ok (Resolved 400)
  /\ frames_scheduled
       (trace (scrollTo page tt (ANumber 400) no_options false shared)) = 0%nat
  /\ filter is_scroll_write
       (trace (scrollTo page tt (ANumber 400) no_options false shared)) = nil.
Proof.
  apply (already_at_target page tt (ANumber 400) no_options false shared
           easeInOutCubic page_body 400 (ConsoleLog 0 600 400 :: nil)).
  - vm_compute. reflexivity.
  - reflexivity.
  - reflexivity.
  - reflexivity.
Defined.

(** C6.  A call with a duration of [0] whose target location differs from the
    start location requests one frame, and on that frame, whatever its
    timestamp, the promise resolves with exactly the computed target
    location; no second frame is requested. *)
Theorem zero_duration_first_frame :
  forall {Σ} (w : Window) (σ : Σ) (_target : Any)
    (_options : PartialGoToOptions) (horizontal : bool)
    (goTo : GoToInstance Σ) (ease : number -> number) (c : HTMLElement)
    (targetLocation : number) (t : list Event),
    resolve_ease (call_options goTo _options) = Some ease ->
    call_container w _target _options goTo = Some c ->
    call_targetLocation w σ _target _options horizontal goTo c
      = (Ok targetLocation, t) ->
    ~ targetLocation == scroll_position c horizontal ->
    duration (call_options goTo _options) == 0 ->
    exists r,
      result (scrollTo w σ _target _options horizontal goTo) = Ok (Pending r)
      /\ frames_scheduled
           (trace (scrollTo w σ _target _options horizontal goTo)) = 1%nat
      /\ forall (currentTime : number) (later : list number),
           result (step w r currentTime) = Ok (Resolved targetLocation)
           /\ frames_scheduled (trace (step w r currentTime)) = 0%nat
           /\ animate w (Pending r) (currentTime :: later)
              = step w r currentTime.
Proof.
  intros Σ w σ _target _options horizontal goTo ease c targetLocation t
    He Hc Ht Hne Hd.
  rewrite (scrollTo_normal _ _ _ _ _ _ _ _ _ _ He Hc Ht).
  destruct (Qeq_bool targetLocation (scroll_position c horizontal)) eqn:E.
  { apply Qeq_bool_iff in E. contradiction. }
  eexists. split; [reflexivity |]. split.
  - unfold call_targetLocation in Ht. rewrite clampTarget_normal in Ht.
    injection Ht as _ <-. reflexivity.
  - intros currentTime later.
    assert (Hs : step w
                   (mkRun c (duration (call_options goTo _options)) ease
                      horizontal (scroll_position c horizontal) targetLocation
                      (now w)) currentTime
                 = (Ok (Resolved targetLocation),
                    ScrollWrite (node c) horizontal
                      (frame_location
                         (mkRun c (duration (call_options goTo _options)) ease
                            horizontal (scroll_position c horizontal)
                            targetLocation (now w)) currentTime) :: nil)).
    { rewrite step_normal. unfold frame_progress, progress_at, truthy.
      cbn [run_duration]. apply Qeq_bool_iff in Hd. rewrite Hd.
      reflexivity. }
    cbn [animate]. rewrite Hs. repeat split.
    unfold bind. rewrite animate_resolved. reflexivity.
Qed.

Lemma zero_duration_first_frame_witness :
  exists r,
    result (scrollTo page tt (ANumber 0) (with_duration 0) false shared)
      = Ok (Pending r)
    /\ frames_scheduled
         (trace (scrollTo page tt (ANumber 0) (with_duration 0) false shared))
       = 1%nat
    /\ forall (currentTime : number) (later : list number),
         result (step page r currentTime) = Ok (Resolved 0)
         /\ frames_scheduled (trace (step page r currentTime)) = 0%nat
         /\ animate page (Pending r) (currentTime :: later)
            = step page r currentTime.
Proof.
  apply (zero_duration_first_frame page tt (ANumber 0) (with_duration 0) false
           shared easeInOutCubic page_body 0 (ConsoleLog 0 600 0 :: nil)).
  - vm_compute. reflexivity.
  - reflexivity.
  - reflexivity.
  - vm_compute. discriminate.
  - reflexivity.
Defined.

(** ** Early termination at the boundary *)

(** C7, as amended.  On a frame whose progress is not [1] the boundary check
    reads the container after that frame's write.  If the client size plus
    the scroll offset read back has reached the scroll size and the target
    location is greater than that offset, the promise resolves with the
    target location on that frame; the readings are [clientHeight],
    [scrollTop], [scrollHeight] vertically and [clientWidth], [scrollLeft],
    [scrollWidth] horizontally, the client size being that of the document
    element when the container is the body.  When the target location is at
    or below the offset read back, or the boundary is not reached, the next
    frame is requested.  A container at its boundary at call time resolves on
    the frame whenever the location written there is not below the offset it
    had and is below the target location. *)
Theorem early_termination :
  forall (w : Window) (r : Run) (currentTime : number),
    let horizontal := run_horizontal r in
    let targetLocation := run_targetLocation r in
    let r' := after_frame r currentTime in
    let c' := run_container r' in
    (* what is read back is what was written *)
    scroll_position c' horizontal = frame_location r currentTime
    (* the readings, per axis *)
    /\ at_boundary w c' horizontal
       = (if horizontal
          then geb ((if same_node c' (body w)
                     then clientWidth (documentElement w)
                     else clientWidth c') + scrollLeft c') (scrollWidth c')
          else geb ((if same_node c' (body w)
                     then clientHeight (documentElement w)
                     else clientHeight c') + scrollTop c') (scrollHeight c'))
    (* resolution at the boundary *)
    /\ (at_boundary w c' horizontal = true ->
        scroll_position c' horizontal < targetLocation ->
        result (step w r currentTime) = Ok (Resolved targetLocation)
        /\ frames_scheduled (trace (step w r currentTime)) = 0%nat)
    (* no early termination otherwise *)
    /\ (~ frame_progress r currentTime == 1 ->
        targetLocation <= scroll_position c' horizontal
        \/ at_boundary w c' horizontal = false ->
        result (step w r currentTime) = Ok (Pending r')
        /\ frames_scheduled (trace (step w r currentTime)) = 1%nat)
    (* from the state at call time *)
    /\ (at_boundary w (run_container r) horizontal = true ->
        scroll_position (run_container r) horizontal
          <= frame_location r currentTime ->
        frame_location r currentTime < targetLocation ->
        result (step w r currentTime) = Ok (Resolved targetLocation)).
Proof.
  intros w r currentTime horizontal targetLocation r' c'.
  assert (Hpos : scroll_position c' horizontal = frame_location r currentTime).
  { subst c' r'. unfold after_frame, scrolled, scroll_position.
    cbn [run_container]. fold horizontal. destruct horizontal; reflexivity. }
  assert (Hstop : at_boundary w c' horizontal = true ->
                  scroll_position c' horizontal < targetLocation ->
                  step w r currentTime
                  = (Ok (Resolved targetLocation),
                     ScrollWrite (node (run_container r)) horizontal
                       (frame_location r currentTime) :: nil)).
  { intros Hb Hlt. rewrite step_normal. fold r' c' horizontal targetLocation.
    unfold stops_early. rewrite Hb. apply gtb_lt in Hlt. rewrite Hlt.
    rewrite orb_true_r. reflexivity. }
  split; [exact Hpos |]. split; [| split; [| split]].
  - unfold at_boundary, client_size, scroll_position, scroll_size.
    destruct horizontal; destruct (same_node c' (body w)); reflexivity.
  - intros Hb Hlt. rewrite (Hstop Hb Hlt). split; reflexivity.
  - intros Hp Hor. rewrite step_normal. fold r' c' horizontal targetLocation.
    destruct (Qeq_bool (frame_progress r currentTime) 1) eqn:E.
    { apply Qeq_bool_iff in E. contradiction. }
    cbn [orb]. unfold stops_early.
    destruct Hor as [Hle | Hb].
    + apply gtb_le in Hle. rewrite Hle. split; reflexivity.
    + rewrite Hb, andb_false_r. split; reflexivity.
  - intros Hb Hle Hlt. rewrite Hstop; [reflexivity | | rewrite Hpos; exact Hlt].
    revert Hb. unfold at_boundary. rewrite !geb_le, Hpos.
    assert (Hcs : client_size w c' horizontal
                  = client_size w (run_container r) horizontal).
    { subst c' r'. unfold after_frame, scrolled, client_size, same_node.
      cbn [run_container]. fold horizontal. destruct horizontal; reflexivity. }
    assert (Hss : scroll_size c' horizontal
                  = scroll_size (run_container r) horizontal).
    { subst c' r'. unfold after_frame, scrolled, scroll_size.
      cbn [run_container]. fold horizontal. destruct horizontal; reflexivity. }
    rewrite Hcs, Hss. intros Hb. lra.
Qed.

Lemma early_termination_witness :
  (result (step page down_run 1100) = Ok (Resolved 600)
   /\ frames_scheduled (trace (step page down_run 1100)) = 0%nat)
  /\ (result (step page up_run 1000) = Ok (Pending (after_frame up_run 1000))
      /\ frames_scheduled (trace (step page up_run 1000)) = 1%nat)
  /\ result (step page down_run 1150) = Ok (Resolved 600).
Proof.
  split; [| split].
  - destruct (early_termination page down_run 1100) as (_ & _ & H & _ & _).
    apply H; vm_compute; reflexivity.
  - destruct (early_termination page up_run 1000) as (_ & _ & _ & H & _).
    apply H; [vm_compute; discriminate | left; vm_compute; discriminate].
  - destruct (early_termination page down_run 1150) as (_ & _ & _ & _ & H).
    apply H; vm_compute; first [reflexivity | discriminate].
Defined.

(** C7, as stated, fails: the page is at its boundary when the call is made
    and the target location lies beyond its scroll offset, yet with an easing
    that first backs up the first frame scrolls the page away from the
    boundary and requests another frame. *)
Lemma early_termination_counterexample :
  ~ (forall (w : Window) (_target : Any) (_options : PartialGoToOptions)
            (horizontal : bool) (goTo : GoToInstance unit) (r : Run)
            (currentTime : number),
        result (scrollTo w tt _target _options horizontal goTo)
          = Ok (Pending r) ->
        at_boundary w (run_container r) horizontal = true ->
        scroll_position (run_container r) horizontal < run_targetLocation r ->
        result (step w r currentTime) = Ok (Resolved (run_targetLocation r))).
Proof.
  intros H.
  specialize (H page (ANumber 5000) (with_easing (EasingFunction easeInBack))
                false shared back_run 1100).
  assert (Hstep : result (step page back_run 1100)
                  = Ok (Pending (after_frame back_run 1100))).
  { rewrite step_normal. reflexivity. }
  rewrite Hstep in H.
  discriminate H; vm_compute; reflexivity.
Qed.

(** The first frame of that run writes 377, below the 400 the page was at. *)
Example back_run_first_frame :
  trace (step page back_run 1100)
  = (ScrollWrite 100 false 377 :: RequestAnimationFrame :: nil)%list.
Proof. reflexivity. Qed.

(** ** Easing resolution *)



(** ** Side effects *)

(** C3.  The scroll position is not the only thing written: every run of the
    clamp function prints its bounds and its argument on the console, and so
    does every call of [scrollTo] that gets as far as the clamp, here a call
    that finds the page already at the target and scrolls nothing. *)
Theorem clampTarget_console_log :
  (forall (c : HTMLElement) (v : number) (rtl horizontal : bool),
      trace (clampTarget c v rtl horizontal)
      = (ConsoleLog (clamp_min c rtl horizontal) (clamp_max c rtl horizontal) v
           :: nil)%list)
  /\ (forall {Σ} (w : Window) (σ : Σ) (_target : Any)
             (_options : PartialGoToOptions) (horizontal : bool)
             (goTo : GoToInstance Σ),
        match result (scrollTo w σ _target _options horizontal goTo) with
        | Ok _ =>
            existsb is_console_log
              (trace (scrollTo w σ _target _options horizontal goTo)) = true
        | Throw _ =>
            trace (scrollTo w σ _target _options horizontal goTo) = nil
        end)
  /\ scrollTo page tt (ANumber 400) no_options false shared
     = (Ok (Resolved 400), (ConsoleLog 0 600 400 :: nil)%list).
Proof.
  split; [reflexivity |]. split; [| reflexivity].
  intros Σ w σ _target _options horizontal goTo. unfold scrollTo.
  destruct (resolve_ease _); [| reflexivity].
  destruct (resolve_container _ _ _); [| reflexivity].
  rewrite clampTarget_normal.
  cbv beta iota zeta delta [bind ret requestAnimationFrame emit].
  destruct (Qeq_bool _ _); reflexivity.
Qed.

(** ** Public facade *)

(** C10.  A call through the function [useGoTo] returns, on either axis, is
    the call of [scrollTo] with a right-to-left flag that is the disjunction
    of the injected instance's flag and the ambient locale's flag, both read
    when the call is made.  The ambient flag counts: under a right-to-left
    provider a horizontal call to 50 heads for -50, where the injected
    left-to-right instance alone heads for 50. *)
Theorem useGoTo_rtl :
  forall {Σ} (goToInstance : GoToInstance Σ) (isRtl : Ref Σ bool)
    (_options : PartialGoToOptions),
    (exists g,
        useGoTo (Some goToInstance) isRtl _options = Ok g
        /\ forall (w : Window) (σ : Σ) (target : Any)
             (opts : option PartialGoToOptions),
            let flag := value (rtl goToInstance) σ || value isRtl σ in
            let goTo :=
              mkGoToInstance (fun _ => flag) (options goToInstance) in
            let merged :=
              mergeDeep_partial _options (default no_options opts) in
            call_rtl goTo σ = flag
            /\ go g w σ target opts = scrollTo w σ target merged false goTo
            /\ go_horizontal g w σ target opts
               = scrollTo w σ target merged true goTo)
    /\ match under_rtl_provider with
       | Ok g =>
           (exists r,
               result (go_horizontal g page tt (ANumber 50)
                         (Some (with_container wide_box)))
               = Ok (Pending r)
               /\ run_targetLocation r == -50)
           /\ (exists r,
                 result (scrollTo page tt (ANumber 50)
                           (with_container wide_box) true shared)
                 = Ok (Pending r)
                 /\ run_targetLocation r == 50)
       | Throw _ => False
       end.
Proof.
  intros Σ goToInstance isRtl _options. split.
  - eexists. split; [reflexivity |].
    intros w σ target opts flag goTo merged. repeat split.
  - cbn [under_rtl_provider useGoTo]. split; eexists; split; reflexivity.
Qed.

(** ** The easing library *)

(** [ring] on goals whose variables are declared as [number]. *)
Ltac number_ring := unfold number in *; ring.

Lemma first_half_true t : first_half t = true <-> t < 1 # 2.
Proof.
  unfold first_half.
  rewrite negb_true_iff, <- not_true_iff_false, Qle_bool_iff.
  split; [apply Qnot_le_lt | apply Qlt_not_le].
Qed.

Lemma first_half_false t : first_half t = false <-> 1 # 2 <= t.
Proof. unfold first_half. rewrite negb_false_iff, Qle_bool_iff. reflexivity. Qed.


Lemma upow_comp k a b : a == b -> upow k a == upow k b.
Proof.
  intros H. induction k as [| k IH]; cbn [upow]; [reflexivity |].
  rewrite IH, H. reflexivity.
Qed.

Lemma upow_unit k t : 0 <= t <= 1 -> 0 <= upow k t <= 1.
Proof.
  intros Ht. induction k as [| k IH]; cbn [upow].
  - split; discriminate.
  - destruct Ht, IH. split; nra.
Qed.


Lemma upow_zero k : (1 <= k)%nat -> upow k 0 == 0.
Proof. destruct k; [lia |]. intros _. cbn [upow]. ring. Qed.

Lemma upow_one k : upow k 1 == 1.
Proof. induction k as [| k IH]; cbn [upow]; [reflexivity |]. rewrite IH. ring. Qed.

(** Every entry of the built-in table is a curve of one of the families. *)
Lemma default_patterns_shape name f :
  default_patterns !! name = Some f -> has_shape f.
Proof.
  intros H. unfold default_patterns in H.
  apply elem_of_list_to_map_2 in H.
  repeat (apply elem_of_cons in H; destruct H as [H | H];
          [injection H as _ -> | ]).
  14: { apply elem_of_nil in H. destruct H. }
  - exists 1%nat. split; [lia |]. left. intros t.
    unfold linear, shape_in. cbn [upow]. number_ring.
  - exists 2%nat. split; [lia |]. left. intros t.
    unfold easeInQuad, shape_in. cbn [upow]. number_ring.
  - exists 2%nat. split; [lia |]. right. left. intros t.
    unfold easeOutQuad, shape_out. cbn [upow]. number_ring.
  - exists 2%nat. split; [lia |]. right. right. intros t.
    unfold easeInOutQuad, shape_inout. cbn [upow].
    destruct (first_half t); number_ring.
  - exists 3%nat. split; [lia |]. left. intros t.
    unfold easeInCubic, shape_in. cbn [upow]. number_ring.
  - exists 3%nat. split; [lia |]. right. left. intros t.
    unfold easeOutCubic, shape_out. cbn [upow]. number_ring.
  - exists 3%nat. split; [lia |]. right. right. intros t.
    unfold easeInOutCubic, shape_inout. cbn [upow].
    destruct (first_half t); number_ring.
  - exists 4%nat. split; [lia |]. left. intros t.
    unfold easeInQuart, shape_in. cbn [upow]. number_ring.
  - exists 4%nat. split; [lia |]. right. left. intros t.
    unfold easeOutQuart, shape_out. cbn [upow]. number_ring.
  - exists 4%nat. split; [lia |]. right. right. intros t.
    unfold easeInOutQuart, shape_inout. cbn [upow].
    destruct (first_half t); number_ring.
  - exists 5%nat. split; [lia |]. left. intros t.
    unfold easeInQuint, shape_in. cbn [upow]. number_ring.
  - exists 5%nat. split; [lia |]. right. left. intros t.
    unfold easeOutQuint, shape_out. cbn [upow]. number_ring.
  - exists 5%nat. split; [lia |]. right. right. intros t.
    unfold easeInOutQuint, shape_inout. cbn [upow].
    destruct (first_half t); number_ring.
Qed.


Lemma shape_ends f : has_shape f -> f 0 == 0 /\ f 1 == 1.
Proof.
  intros (k & Hk & [H | [H | H]]); rewrite (H 0), (H 1).
  - split; [apply upow_zero, Hk | apply upow_one].
  - unfold shape_out. split.
    + rewrite (upow_comp k (1 - 0) 1) by reflexivity. rewrite upow_one.
      reflexivity.
    + rewrite (upow_comp k (1 - 1) 0) by reflexivity.
      rewrite (upow_zero k Hk). reflexivity.
  - unfold shape_inout.
    change (first_half 0) with true. change (first_half 1) with false.
    split.
    + rewrite (upow_comp k (2 * 0) 0) by reflexivity.
      rewrite (upow_zero k Hk). reflexivity.
    + rewrite (upow_comp k (2 * (1 - 1)) 0) by reflexivity.
      rewrite (upow_zero k Hk). reflexivity.
Qed.

Lemma shape_unit f t : has_shape f -> 0 <= t <= 1 -> 0 <= f t <= 1.
Proof.
  intros (k & _ & [H | [H | H]]) [H0 H1]; rewrite (H t).
  - apply upow_unit. split; assumption.
  - unfold shape_out.
    assert (Hu : 0 <= upow k (1 - t) <= 1) by (apply upow_unit; split; lra).
    destruct Hu. split; lra.
  - unfold shape_inout. destruct (first_half t) eqn:E.
    + apply first_half_true in E.
      assert (Hu : 0 <= upow k (2 * t) <= 1) by (apply upow_unit; split; lra).
      destruct Hu. split; lra.
    + apply first_half_false in E.
      assert (Hu : 0 <= upow k (2 * (1 - t)) <= 1)
        by (apply upow_unit; split; lra).
      destruct Hu. split; lra.
Qed.


(** X1.  Every built-in easing starts at 0 and ends at 1. *)
Theorem builtin_easing_endpoints :
  forall (name : string) (f : number -> number),
    default_patterns !! name = Some f ->
    f 0 == 0 /\ f 1 == 1.
Proof. intros name f H. apply shape_ends, (default_patterns_shape name f H). Qed.

Lemma builtin_easing_endpoints_witness :
  easeInOutQuart 0 == 0 /\ easeInOutQuart 1 == 1.
Proof.
  apply (builtin_easing_endpoints "easeInOutQuart" easeInOutQuart).
  vm_compute. reflexivity.
Defined.

(** X2.  On progress between 0 and 1 every built-in easing takes its values
    between 0 and 1. *)
Theorem builtin_easing_unit :
  forall (name : string) (f : number -> number) (t : number),
    default_patterns !! name = Some f ->
    0 <= t <= 1 ->
    0 <= f t <= 1.
Proof.
  intros name f t H Ht. apply shape_unit; [| exact Ht].
  apply (default_patterns_shape name f H).
Qed.

Lemma builtin_easing_unit_witness :
  0 <= easeOutQuint (1 # 3) <= 1.
Proof.
  apply (builtin_easing_unit "easeOutQuint" easeOutQuint (1 # 3)).
  - vm_compute. reflexivity.
  - split; vm_compute; discriminate.
Defined.



(** ** More on the clamp *)

Lemma clamp_lower v lo hi : lo <= Qmax (Qmin v hi) lo.
Proof. apply Q.le_max_r. Qed.

Lemma clamp_upper v lo hi : lo <= hi -> Qmax (Qmin v hi) lo <= hi.
Proof. intros H. apply Q.max_lub; [apply Q.le_min_r | exact H]. Qed.

Lemma clamp_inside v lo hi : lo <= v -> v <= hi -> Qmax (Qmin v hi) lo == v.
Proof.
  intros H1 H2. rewrite Q.max_l; rewrite Q.min_l; try assumption.
  reflexivity.
Qed.

Lemma clamp_inverted v lo hi : hi <= lo -> Qmax (Qmin v hi) lo == lo.
Proof.
  intros H. apply Q.max_r.
  apply Qle_trans with (y := hi); [apply Q.le_min_r | exact H].
Qed.

Lemma clamp_monotone v v' lo hi :
  v <= v' -> Qmax (Qmin v hi) lo <= Qmax (Qmin v' hi) lo.
Proof.
  intros H. apply Q.max_le_compat_r. apply Q.min_le_compat_r. exact H.
Qed.

Lemma clamp_bounds_order c rtl horizontal :
  clamp_min c rtl horizontal <= clamp_max c rtl horizontal
  <-> offset_size c horizontal <= scroll_size c horizontal.
Proof.
  unfold clamp_min, clamp_max, offset_size, scroll_size.
  destruct horizontal, rtl; split; intros H; lra.
Qed.

(** X4.  When the container's outer size does not exceed its scroll size, the
    clamp returns a value inside the range, returns an in-range value as it
    is, and sends values beyond a bound to that bound.  When the outer size
    exceeds the scroll size (a bordered box without overflow) it returns the
    lower bound, whatever the value.  It is monotone in the value. *)
Theorem clampTarget_range :
  forall (c : HTMLElement) (v : number) (rtl horizontal : bool),
    let lo := clamp_min c rtl horizontal in
    let hi := clamp_max c rtl horizontal in
    exists r,
      result (clampTarget c v rtl horizontal) = Ok r
      /\ lo <= r
      /\ (offset_size c horizontal <= scroll_size c horizontal ->
          r <= hi
          /\ (lo <= v -> v <= hi -> r == v)
          /\ (v <= lo -> r == lo)
          /\ (hi <= v -> r == hi))
      /\ (scroll_size c horizontal < offset_size c horizontal -> r == lo)
      /\ (forall v' r',
            v <= v' ->
            result (clampTarget c v' rtl horizontal) = Ok r' ->
            r <= r').
Proof.
  intros c v rtl horizontal lo hi.
  eexists. split; [reflexivity |]. fold lo hi.
  split; [apply clamp_lower |]. split; [| split].
  - intros Hsize. apply clamp_bounds_order with (rtl := rtl) in Hsize.
    fold lo hi in Hsize. split; [apply clamp_upper, Hsize |].
    split; [apply clamp_inside |]. split.
    + intros Hv. apply Q.max_r.
      apply Qle_trans with (y := v); [apply Q.le_min_l | exact Hv].
    + intros Hv. rewrite Q.min_r by exact Hv. apply Q.max_l, Hsize.
  - intros Hsize. apply clamp_inverted.
    apply Qlt_le_weak. apply Qnot_le_lt. intros Hle.
    apply (clamp_bounds_order c rtl horizontal) in Hle.
    apply Qle_not_lt in Hle. contradiction.
  - intros v' r' Hv [= <-]. fold lo hi. apply clamp_monotone, Hv.
Qed.

Lemma clampTarget_range_witness :
  exists r,
    result (clampTarget wide_box 250 false true) = Ok r
    /\ r == 250
    /\ forall v' r',
         250 <= v' -> result (clampTarget wide_box v' false true) = Ok r' ->
         r <= r'.
Proof.
  destruct (clampTarget_range wide_box 250 false true)
    as (r & Hr & _ & Hin & _ & Hmono).
  exists r. split; [exact Hr |]. split.
  - apply Hin; vm_compute; discriminate.
  - exact Hmono.
Defined.



(** X6.  A vertical call does not depend on the right-to-left flag: two
    instances with the same options give the same call, whatever their flags
    read. *)
Theorem vertical_ignores_rtl :
  forall {Σ Σ'} (w : Window) (σ : Σ) (σ' : Σ') (_target : Any)
    (_options : PartialGoToOptions) (goTo : GoToInstance Σ)
    (goTo' : GoToInstance Σ'),
    options goTo = options goTo' ->
    scrollTo w σ _target _options false goTo
    = scrollTo w σ' _target _options false goTo'.
Proof.
  intros Σ Σ' w σ σ' _target _options goTo goTo' Hopts.
  unfold scrollTo. rewrite <- Hopts.
  destruct (resolve_ease _); [| reflexivity].
  destruct (resolve_container _ _ _); [| reflexivity].
  rewrite !clampTarget_normal.
  assert (Hraw : forall o a b,
             raw_targetLocation w (mergeDeep (options goTo) _options)
               (resolve_target w _target) o false a
             = raw_targetLocation w (mergeDeep (options goTo) _options)
                 (resolve_target w _target) o false b).
  { intros o a b. unfold raw_targetLocation.
    destruct (resolve_target w _target); reflexivity. }
  rewrite (Hraw _ (value (rtl goTo) σ) (value (rtl goTo') σ')).
  reflexivity.
Qed.

Lemma vertical_ignores_rtl_witness :
  scrollTo page tt (ANumber 100) no_options false shared
  = scrollTo page tt (ANumber 100) no_options false
      (mkGoToInstance (fun _ : unit => true) (options shared)).
Proof.
  apply (vertical_ignores_rtl page tt tt (ANumber 100) no_options shared
           (mkGoToInstance (fun _ : unit => true) (options shared))).
  reflexivity.
Defined.

(** ** Progress and location of a frame *)

Lemma truthy_pos d : 0 < d -> truthy d = true.
Proof.
  intros H. unfold truthy. destruct (Qeq_bool d 0) eqn:E; [| reflexivity].
  apply Qeq_bool_iff in E. lra.
Qed.

Lemma truthy_zero d : d == 0 -> truthy d = false.
Proof. intros H. unfold truthy. apply Qeq_bool_iff in H. rewrite H. reflexivity. Qed.





Lemma progress_at_done d e : 0 < d -> d <= e -> progress_at d e == 1.
Proof.
  intros Hd He. unfold progress_at. rewrite (truthy_pos d Hd).
  assert (H1 : 1 <= e / d) by (apply Qle_shift_div_l; [exact Hd | lra]).
  rewrite (Q.min_r _ _ H1). reflexivity.
Qed.

Lemma progress_at_instant d e : d == 0 -> progress_at d e = 1.
Proof. intros Hd. unfold progress_at. rewrite (truthy_zero d Hd). reflexivity. Qed.













(** ** The animation as a whole *)

(** One frame of [animate]. *)
Lemma animate_frame (w : Window) (r : Run) (t : number) (times : list number) :
  animate w (Pending r) (t :: times)
  = if Qeq_bool (frame_progress r t) 1
       || stops_early w (run_container (after_frame r t)) (run_horizontal r)
            (run_targetLocation r)
    then (Ok (Resolved (run_targetLocation r)),
          ScrollWrite (node (run_container r)) (run_horizontal r)
            (frame_location r t) :: nil)
    else (result (animate w (Pending (after_frame r t)) times),
          ScrollWrite (node (run_container r)) (run_horizontal r)
            (frame_location r t)
          :: RequestAnimationFrame
          :: trace (animate w (Pending (after_frame r t)) times)).
Proof.
  cbn [animate]. rewrite step_normal.
  destruct (_ || _).
  - unfold bind. rewrite animate_resolved. reflexivity.
  - unfold bind.
    destruct (animate w (Pending (after_frame r t)) times) as [res tr].
    reflexivity.
Qed.

Lemma after_frame_node (r : Run) (t : number) :
  node (run_container (after_frame r t)) = node (run_container r).
Proof.
  unfold after_frame, scrolled. cbn [run_container].
  destruct (run_horizontal r); reflexivity.
Qed.

(** The promise of a run is only ever resolved with its target location. *)
Lemma animate_value (w : Window) (times : list number) :
  forall (r : Run) (v : number),
    result (animate w (Pending r) times) = Ok (Resolved v) ->
    v = run_targetLocation r.
Proof.
  induction times as [| t times IH]; intros r v H.
  - discriminate H.
  - rewrite animate_frame in H. destruct (_ || _).
    + injection H as <-. reflexivity.
    + apply (IH (after_frame r t) v H).
Qed.

(** A frame that comes when the duration has elapsed ends the animation. *)
Lemma animate_settles (w : Window) (times : list number) :
  forall (r : Run) (t : number),
    In t times ->
    run_duration r == 0
    \/ (0 < run_duration r /\ run_duration r <= t - run_startTime r) ->
    result (animate w (Pending r) times) = Ok (Resolved (run_targetLocation r)).
Proof.
  induction times as [| t0 times IH]; intros r t Hin Hdone; [destruct Hin |].
  rewrite animate_frame.
  destruct (Qeq_bool (frame_progress r t0) 1) eqn:E; [reflexivity |].
  destruct (stops_early _ _ _ _); [reflexivity |]. cbn [orb].
  destruct Hin as [<- | Hin].
  - exfalso. apply Qeq_bool_neq in E. apply E. unfold frame_progress.
    destruct Hdone as [Hz | [Hpos Hel]].
    + rewrite (progress_at_instant _ _ Hz). reflexivity.
    + apply progress_at_done; assumption.
  - apply (IH (after_frame r t0) t Hin Hdone).
Qed.

(** X10.  A call whose easing and container resolve and whose duration is
    not negative settles: as soon as the browser runs a frame whose timestamp
    is at least the start time plus the duration, the promise is resolved
    with the clamped target location. *)
Theorem session_settles :
  forall {Σ} (w : Window) (σ : Σ) (_target : Any)
    (_options : PartialGoToOptions) (horizontal : bool)
    (goTo : GoToInstance Σ) (ease : number -> number) (c : HTMLElement)
    (targetLocation : number) (tr : list Event) (times : list number)
    (t : number),
    resolve_ease (call_options goTo _options) = Some ease ->
    call_container w _target _options goTo = Some c ->
    call_targetLocation w σ _target _options horizontal goTo c
      = (Ok targetLocation, tr) ->
    0 <= duration (call_options goTo _options) ->
    In t times ->
    now w + duration (call_options goTo _options) <= t ->
    result (scroll_session w σ _target _options horizontal goTo times)
    = Ok (Resolved targetLocation).
Proof.
  intros Σ w σ _target _options horizontal goTo ease c targetLocation tr
    times t He Hc Ht Hd Hin Hlate.
  unfold scroll_session.
  rewrite (scrollTo_normal _ _ _ _ _ _ _ _ _ _ He Hc Ht).
  destruct (Qeq_bool targetLocation (scroll_position c horizontal)).
  - unfold bind. rewrite animate_resolved. reflexivity.
  - unfold bind.
    match goal with |- context [animate w (Pending ?r) times] =>
      pose proof (animate_settles w times r t Hin) as Hs;
      destruct (animate w (Pending r) times) as [res tr'] end.
    cbn [run_duration run_startTime run_targetLocation result fst] in Hs.
    cbn [result fst]. apply Hs.
    destruct (Qlt_le_dec 0 (duration (call_options goTo _options)))
      as [Hpos | Hzero].
    + right. split; [exact Hpos | lra].
    + left. lra.
Qed.

Lemma session_settles_witness :
  result (scroll_session page tt (ANumber 0) no_options false shared
            (1016 :: 1150 :: 1300 :: 1316 :: nil))
  = Ok (Resolved 0).
Proof.
  apply (session_settles page tt (ANumber 0) no_options false shared
           easeInOutCubic page_body 0 (ConsoleLog 0 600 0 :: nil)
           (1016 :: 1150 :: 1300 :: 1316 :: nil) 1300).
  - vm_compute. reflexivity.
  - reflexivity.
  - reflexivity.
  - vm_compute. discriminate.
  - simpl. tauto.
  - vm_compute. discriminate.
Defined.

(** X11.  Whatever frames the browser runs, a call is only ever resolved
    with a value that is at least the lower clamp bound of its container,
    and at most the upper one when the container's outer size does not
    exceed its scroll size. *)
Theorem session_value_in_range :
  forall {Σ} (w : Window) (σ : Σ) (_target : Any)
    (_options : PartialGoToOptions) (horizontal : bool)
    (goTo : GoToInstance Σ) (c : HTMLElement) (times : list number)
    (v : number),
    call_container w _target _options goTo = Some c ->
    result (scroll_session w σ _target _options horizontal goTo times)
      = Ok (Resolved v) ->
    clamp_min c (call_rtl goTo σ) horizontal <= v
    /\ (offset_size c horizontal <= scroll_size c horizontal ->
        v <= clamp_max c (call_rtl goTo σ) horizontal).
Proof.
  intros Σ w σ _target _options horizontal goTo c times v Hc Hres.
  unfold scroll_session in Hres.
  destruct (resolve_ease (call_options goTo _options)) as [ease |] eqn:He.
  - rewrite (scrollTo_normal _ _ _ _ _ _ _ _ _ _ He Hc eq_refl) in Hres.
    assert (Hv : v = Qmax
                       (Qmin
                          (raw_targetLocation w (call_options goTo _options)
                             (resolve_target w _target) (Some c) horizontal
                             (call_rtl goTo σ))
                          (clamp_max c (call_rtl goTo σ) horizontal))
                       (clamp_min c (call_rtl goTo σ) horizontal)).
    { destruct (Qeq_bool _ _).
      - unfold bind in Hres. rewrite animate_resolved in Hres.
        injection Hres as <-. reflexivity.
      - unfold bind in Hres.
        match type of Hres with context [animate w (Pending ?r) times] =>
          pose proof (animate_value w times r v) as Hval;
          destruct (animate w (Pending r) times) as [res tr'] end.
        cbn [result fst] in Hres, Hval. apply (Hval Hres). }
    rewrite Hv. split; [apply clamp_lower |].
    intros Hsize. apply clamp_upper.
    apply clamp_bounds_order, Hsize.
  - exfalso. unfold scrollTo in Hres. unfold call_options in He.
    rewrite He in Hres. discriminate Hres.
Qed.

Lemma session_value_in_range_witness :
  clamp_min page_body (call_rtl shared tt) false <= 600
  /\ (offset_size page_body false <= scroll_size page_body false ->
      600 <= clamp_max page_body (call_rtl shared tt) false).
Proof.
  apply (session_value_in_range page tt (ANumber 5000) no_options false shared
           page_body (1100 :: nil) 600).
  - reflexivity.
  - vm_compute. reflexivity.
Defined.

(** X12.  The frames of a run leave only two kinds of events: writes to the
    scroll position of the run's own container on the run's own axis, and
    frame requests.  Nothing is printed, at most one write is made per frame
    the browser runs, and a frame is requested after every write but the
    last. *)
Theorem animate_effects :
  forall (w : Window) (times : list number) (r : Run),
    let t := trace (animate w (Pending r) times) in
    Forall (run_event r) t
    /\ existsb is_console_log t = false
    /\ (length (List.filter is_scroll_write t) <= length times)%nat
    /\ (frames_scheduled t <= length (List.filter is_scroll_write t))%nat.
Proof.
  intros w times. induction times as [| t0 times IH]; intros r.
  - cbn. repeat split; [constructor | lia | lia].
  - cbv zeta. rewrite animate_frame. destruct (_ || _).
    + cbn. repeat split; try lia.
      constructor; [right; eexists; reflexivity | constructor].
    + destruct (IH (after_frame r t0)) as (Hall & Hlog & Hw & Hf).
      unfold frames_scheduled in *.
      cbn [trace snd existsb is_console_log orb List.filter is_scroll_write
             is_frame_request length].
      fold (trace (animate w (Pending (after_frame r t0)) times)).
      repeat split.
      * constructor; [right; eexists; reflexivity |].
        constructor; [left; reflexivity |].
        revert Hall. apply List.Forall_impl. intros e [-> | [v ->]].
        -- left. reflexivity.
        -- right. exists v. rewrite after_frame_node. reflexivity.
      * exact Hlog.
      * lia.
      * lia.
Qed.

(** ** Targets and containers *)

(** X13.  With the container option ['parent'] and a target that resolves to
    an element, the container is that element's parent; when the element has
    no parent the call throws the engine's [TypeError] once the easing is
    resolved, before anything is printed or scheduled.  For a numeric target
    ['parent'] is an ordinary selector. *)
Theorem parent_container :
  forall {Σ} (w : Window) (σ : Σ) (d : Descriptor)
    (_options : PartialGoToOptions) (horizontal : bool)
    (goTo : GoToInstance Σ) (e : HTMLElement),
    getTarget w d = Some e ->
    container (call_options goTo _options) = DString "parent" ->
    call_container w (ADescriptor d) _options goTo = parentElement e
    /\ (forall ease,
          parentElement e = None ->
          resolve_ease (call_options goTo _options) = Some ease ->
          scrollTo w σ (ADescriptor d) _options horizontal goTo
          = (Throw NullTypeError, nil))
    /\ (forall n,
          call_container w (ANumber n) _options goTo
          = Some (getContainer w (DString "parent"))).
Proof.
  intros Σ w σ d _options horizontal goTo e Hd Hp.
  assert (Hc : call_container w (ADescriptor d) _options goTo = parentElement e).
  { unfold call_container, resolve_target, resolve_container.
    rewrite Hd, Hp. reflexivity. }
  split; [exact Hc |]. split.
  - intros ease Hnone He. unfold scrollTo.
    unfold call_options in He. rewrite He.
    unfold call_container, call_options in Hc. rewrite Hc, Hnone.
    reflexivity.
  - intros n. unfold call_container, resolve_target, resolve_container.
    rewrite Hp. reflexivity.
Qed.

Lemma parent_container_witness :
  call_container page (ADescriptor (DElement level3)) in_parent shared = None
  /\ scrollTo page tt (ADescriptor (DElement level3)) in_parent false shared
     = (Throw NullTypeError, nil)
  /\ call_container page (ADescriptor (DElement level1)) in_parent shared
     = Some level2.
Proof.
  destruct (parent_container page tt (DElement level3) in_parent false shared
              level3 eq_refl eq_refl) as (Hc & Hthrow & _).
  destruct (parent_container page tt (DElement level1) in_parent false shared
              level1 eq_refl eq_refl) as (Hc' & _ & _).
  split; [exact Hc |]. split; [| exact Hc'].
  apply (Hthrow easeInOutCubic); [reflexivity | vm_compute; reflexivity].
Defined.

(** X14.  A target that resolves to no element is the number 0: the call is
    the call to 0, and it returns whenever the easing resolves. *)
Theorem missing_target_is_zero :
  forall {Σ} (w : Window) (σ : Σ) (d : Descriptor)
    (_options : PartialGoToOptions) (horizontal : bool)
    (goTo : GoToInstance Σ) (ease : number -> number),
    getTarget w d = None ->
    resolve_ease (call_options goTo _options) = Some ease ->
    scrollTo w σ (ADescriptor d) _options horizontal goTo
    = scrollTo w σ (ANumber 0) _options horizontal goTo
    /\ exists p,
         result (scrollTo w σ (ADescriptor d) _options horizontal goTo) = Ok p.
Proof.
  intros Σ w σ d _options horizontal goTo ease Hd He.
  assert (Heq : scrollTo w σ (ADescriptor d) _options horizontal goTo
                = scrollTo w σ (ANumber 0) _options horizontal goTo).
  { unfold scrollTo, resolve_target. rewrite Hd. reflexivity. }
  split; [exact Heq |]. rewrite Heq.
  rewrite (scrollTo_normal w σ (ANumber 0) _options horizontal goTo ease
             (getContainer w (container (call_options goTo _options)))
             _ _ He eq_refl eq_refl).
  destruct (Qeq_bool _ _); eexists; reflexivity.
Qed.

Lemma missing_target_is_zero_witness :
  scrollTo page tt (ADescriptor (DString "#missing")) no_options false shared
  = scrollTo page tt (ANumber 0) no_options false shared
  /\ exists p,
       result (scrollTo page tt (ADescriptor (DString "#missing")) no_options
                 false shared) = Ok p.
Proof.
  apply (missing_target_is_zero page tt (DString "#missing") no_options false
           shared easeInOutCubic).
  - reflexivity.
  - vm_compute. reflexivity.
Defined.

(** X15.  For a target that resolves to an element, the location before
    clamping is the element's offset down its offset-parent chain, minus the
    container's, minus the layout top when the layout option is set, plus the
    offset option; the right-to-left flag plays no part in it.  When the
    container is the element's offset parent and the layout option is off,
    this is the element's own offset plus the offset option. *)
Theorem element_targetLocation :
  forall (w : Window) (opts : GoToOptions) (d : Descriptor)
    (e c : HTMLElement) (horizontal rtl : bool),
    getTarget w d = Some e ->
    raw_targetLocation w opts (resolve_target w (ADescriptor d)) (Some c)
      horizontal rtl
    == chain_offset horizontal e - chain_offset horizontal c
       - layout_adjustment w opts e + offset opts
    /\ (offsetParent e = Some c ->
        layout opts = false ->
        raw_targetLocation w opts (resolve_target w (ADescriptor d)) (Some c)
          horizontal rtl
        == axis_offset horizontal e + offset opts).
Proof.
  intros w opts d e c horizontal rtl Hd.
  assert (Hraw : raw_targetLocation w opts (resolve_target w (ADescriptor d))
                   (Some c) horizontal rtl
                 == chain_offset horizontal e - chain_offset horizontal c
                    - layout_adjustment w opts e + offset opts).
  { unfold resolve_target. rewrite Hd.
    cbv beta iota zeta delta
      [raw_targetLocation layout_adjustment getOffset getTarget refElement].
    destruct (layout opts); [destruct (layoutTop w e) |];
      rewrite !offset_loop_sum; ring. }
  split; [exact Hraw |].
  intros Hp Hl. rewrite Hraw. unfold layout_adjustment. rewrite Hl.
  unfold chain_offset at 1. rewrite (offset_chain_unfold e), Hp.
  cbn [map sum fold_right]. fold (sum (map (axis_offset horizontal) (offset_chain c))).
  fold (chain_offset horizontal c). ring.
Qed.

Lemma element_targetLocation_witness :
  raw_targetLocation page genDefaults
    (resolve_target page (ADescriptor (DElement level1))) (Some level2)
    false false
  == 10.
Proof.
  destruct (element_targetLocation page genDefaults (DElement level1) level1
              level2 false false eq_refl) as [_ H].
  rewrite H; reflexivity.
Defined.

(** X16.  [scrollTo] itself never writes the scroll position, and it
    requests a frame exactly when it returns a pending promise, at most one.
    The run of a pending promise starts at the scroll position the container
    has on the axis, which its target location differs from. *)
Theorem scrollTo_effects :
  forall {Σ} (w : Window) (σ : Σ) (_target : Any)
    (_options : PartialGoToOptions) (horizontal : bool)
    (goTo : GoToInstance Σ),
    let call := scrollTo w σ _target _options horizontal goTo in
    existsb is_scroll_write (trace call) = false
    /\ match result call with
       | Ok (Pending r) =>
           frames_scheduled (trace call) = 1%nat
           /\ call_container w _target _options goTo = Some (run_container r)
           /\ run_horizontal r = horizontal
           /\ run_startLocation r = scroll_position (run_container r) horizontal
           /\ ~ run_targetLocation r == run_startLocation r
       | _ => frames_scheduled (trace call) = 0%nat
       end.
Proof.
  intros Σ w σ _target _options horizontal goTo call. subst call.
  destruct (resolve_ease (call_options goTo _options)) as [ease |] eqn:He.
  - destruct (call_container w _target _options goTo) as [c |] eqn:Hc.
    + rewrite (scrollTo_normal _ _ _ _ _ _ _ _ _ _ He Hc eq_refl).
      destruct (Qeq_bool _ _) eqn:E; cbn; [split; reflexivity |].
      repeat split. intros Heq. apply Qeq_bool_neq in E. contradiction.
    + assert (Hs : scrollTo w σ _target _options horizontal goTo
                   = (Throw NullTypeError, nil)).
      { unfold scrollTo. unfold call_options in He. rewrite He.
        unfold call_container, call_options in Hc. rewrite Hc. reflexivity. }
      rewrite Hs. split; reflexivity.
  - assert (Hs : exists e, scrollTo w σ _target _options horizontal goTo
                           = (Throw e, nil)).
    { unfold scrollTo. unfold call_options in He. rewrite He.
      eexists. reflexivity. }
    destruct Hs as [e Hs]. rewrite Hs. split; reflexivity.
Qed.

(** ** The default configuration *)

(** X17.  On an instance created without options, a call that brings no
    patterns of its own resolves every built-in name to its curve, and a call
    that names no easing uses [easeInOutCubic]: the defaults raise no easing
    error. *)
Theorem builtin_names_resolve :
  forall {Σ} (locale_isRtl : Ref Σ bool) (_options : PartialGoToOptions)
    (name : string) (f : number -> number),
    p_patterns _options = None ->
    default_patterns !! name = Some f ->
    p_easing _options = Some (EasingName name)
    \/ (p_easing _options = None /\ name = "easeInOutCubic"%string) ->
    resolve_ease (call_options (createGoTo None locale_isRtl) _options)
    = Some f.
Proof.
  intros Σ locale_isRtl _options name f Hp Hf He.
  unfold resolve_ease, call_options, createGoTo, mergeDeep.
  cbn [options easing patterns default no_options p_easing p_patterns
         genDefaults].
  rewrite Hp. destruct He as [-> | [-> ->]]; cbn [default]; exact Hf.
Qed.

Lemma builtin_names_resolve_witness :
  resolve_ease
    (call_options (createGoTo None (fun _ : unit => false))
       (with_easing (EasingName "easeOutQuad")))
  = Some easeOutQuad
  /\ resolve_ease
       (call_options (createGoTo None (fun _ : unit => false)) no_options)
     = Some easeInOutCubic.
Proof.
  split.
  - apply (builtin_names_resolve (fun _ : unit => false)
             (with_easing (EasingName "easeOutQuad")) "easeOutQuad").
    + reflexivity.
    + vm_compute. reflexivity.
    + left. reflexivity.
  - apply (builtin_names_resolve (fun _ : unit => false) no_options
             "easeInOutCubic").
    + reflexivity.
    + vm_compute. reflexivity.
    + right. split; reflexivity.
Defined.

(** ** Early termination with the built-in easings *)







